(** * Reporting PNG job creation and the i18n check script

    A shallow embedding of the two TypeScript fragments kept in
    [x-pack/legacy/plugins/reporting/export_types/png/server/create_job/index.ts]:

    - [createJob], the payload constructor of the PNG export type;
    - the callback handed to [run] by the i18n check script: flag
      validation, the three-stage task list and the [catch] block that
      decides how the process finishes.

    Collaborators that live in other modules ([crypto.encrypt],
    [validateUrls], [mergeConfigs], [extractDefaultMessages],
    [extractUntrackedMessages], [integrateLocaleFiles], [createFailError],
    [chalk]) are fields of a class, so every statement holds for
    whatever they do.  Thrown values are explicit results; mutable
    objects (the task context, [process.exitCode], the log) are fields of
    a state record threaded through the calls. *)

From Stdlib Require Import String Ascii List Bool ZArith Lia.
Import ListNotations.
Open Scope string_scope.
Open Scope list_scope.
Set Warnings "-register-all".

(* ================================================================= *)
(** ** JavaScript values and thrown errors *)

(** The values the flag parser can bind to a flag. *)
Inductive JsVal : Type :=
| JUndefined
| JBool (b : bool)
| JString (s : string)
| JNumber (n : Z)
| JArray (l : list string).

Inductive JsType : Type := TUndefined | TBoolean | TString | TNumber | TObject.

Definition typeof (v : JsVal) : JsType :=
  match v with
  | JUndefined => TUndefined
  | JBool _ => TBoolean
  | JString _ => TString
  | JNumber _ => TNumber
  | JArray _ => TObject
  end.

Definition JsType_eqb (a b : JsType) : bool :=
  match a, b with
  | TUndefined, TUndefined | TBoolean, TBoolean | TString, TString
  | TNumber, TNumber | TObject, TObject => true
  | _, _ => false
  end.

(** ToBoolean. *)
Definition truthy (v : JsVal) : bool :=
  match v with
  | JUndefined => false
  | JBool b => b
  | JString s => negb (String.eqb s "")
  | JNumber n => negb (Z.eqb n 0)
  | JArray _ => true
  end.

(** [v !== undefined]. *)
Definition isDefined (v : JsVal) : bool :=
  match v with JUndefined => false | _ => true end.

(** [a || b]: the left operand itself when it is truthy. *)
Definition js_or (a b : JsVal) : JsVal := if truthy a then a else b.

(** [!v] and [!!v]. *)
Definition js_not (v : JsVal) : JsVal := JBool (negb (truthy v)).
Definition js_bool (v : JsVal) : JsVal := JBool (truthy v).

(** A destructuring default, [{ x = d }]: used only when [x] is undefined. *)
Definition withDefault (d v : JsVal) : JsVal :=
  match v with JUndefined => d | _ => v end.

(** A thrown value, as far as the script looks at it: its [name], its
    [message] and its [errors] property ([None] when the property is
    absent, [Some l] when it holds an array, which is truthy even when
    empty).  The runner's own aggregate error is a constructor of its own
    because the runner tests [instanceof ListrError]. *)
Inductive JsErr : Type :=
| Thrown (name message : string) (errors : option (list JsErr))
| ListrError (errors : list JsErr).

Definition err_name (e : JsErr) : string :=
  match e with
  | Thrown n _ _ => n
  | ListrError _ => "ListrError"
  end.

Definition err_errors (e : JsErr) : option (list JsErr) :=
  match e with
  | Thrown _ _ errs => errs
  | ListrError errs => Some errs
  end.

Definition instanceofListrError (e : JsErr) : bool :=
  match e with ListrError _ => true | Thrown _ _ _ => false end.

Definition newline : string := String "010"%char EmptyString.

(** [Array.prototype.join]. *)
Definition join (sep : string) (l : list string) : string := String.concat sep l.

(* ================================================================= *)
(** ** createJob *)

Section CreateJob.

(** [ConditionalHeaders], the layout parameters and [RequestFacade] are
    only passed along. *)
Variables Headers Layout Request Env : Type.

Record JobParamsPNG : Type := {
  objectType : string;
  title : string;
  relativeUrl : string;
  browserTimezone : string;
  layout : Layout
}.

Record JobDoc : Type := {
  job_objectType : string;
  job_title : string;
  job_relativeUrl : string;
  job_headers : string;
  job_browserTimezone : string;
  job_layout : Layout;
  job_basePath : string;
  job_forceNow : string
}.

(** What [createJob] calls.  [Env] is the outside world (key store,
    clock); each call may change it, [crypto.encrypt] and [validateUrls]
    may throw. *)
Class JobCollaborators : Type := {
  crypto_encrypt : Headers -> Env -> Env * (JsErr + string);
  validateUrls : list string -> Env -> Env * option JsErr;
  getBasePath : Request -> Env -> Env * string;
  (** [new Date().toISOString()] *)
  Date_toISOString : Env -> string
}.

Context {JC : JobCollaborators}.

Definition createJob (params : JobParamsPNG) (headers : Headers)
    (request : Request) (env : Env) : Env * (JsErr + JobDoc) :=
  let '(env1, encrypted) := crypto_encrypt headers env in
  match encrypted with
  | inl e => (env1, inl e)
  | inr serializedEncryptedHeaders =>
    let '(env2, invalid) := validateUrls [relativeUrl params] env1 in
    match invalid with
    | Some e => (env2, inl e)
    | None =>
      let '(env3, basePath) := getBasePath request env2 in
      (env3,
       inr {| job_objectType := objectType params;
              job_title := title params;
              job_relativeUrl := relativeUrl params;
              job_headers := serializedEncryptedHeaders;
              job_browserTimezone := browserTimezone params;
              job_layout := layout params;
              job_basePath := basePath;
              job_forceNow := Date_toISOString env3 |})
    end
  end.

End CreateJob.

Arguments objectType {Layout} _.
Arguments title {Layout} _.
Arguments relativeUrl {Layout} _.
Arguments browserTimezone {Layout} _.
Arguments layout {Layout} _.
Arguments job_objectType {Layout} _.
Arguments job_title {Layout} _.
Arguments job_relativeUrl {Layout} _.
Arguments job_headers {Layout} _.
Arguments job_browserTimezone {Layout} _.
Arguments job_layout {Layout} _.
Arguments job_basePath {Layout} _.
Arguments job_forceNow {Layout} _.
Arguments crypto_encrypt {Headers Request Env JobCollaborators} _ _.
Arguments validateUrls {Headers Request Env JobCollaborators} _ _.
Arguments getBasePath {Headers Request Env JobCollaborators} _ _.
Arguments Date_toISOString {Headers Request Env JobCollaborators} _.
Arguments createJob {Headers Layout Request Env JC} _ _ _ _.

(* ================================================================= *)
(** ** State of an i18n check run *)

(** [config.translations] is the only part of the merged config the
    script reads. *)
Record Config : Type := { translations : list string }.

(** The [messages] map of the task context, [Map<string, { message }>]. *)
Definition Messages : Type := list (string * string).

(** The options object handed to [integrateLocaleFiles] ([config] and
    [log] are the same for every call and left out). *)
Record IntegrateOptions : Type := {
  sourceFileName : string;
  targetFileName : JsVal;
  dryRun : JsVal;
  ignoreIncompatible : JsVal;
  ignoreUnused : JsVal;
  ignoreMissing : JsVal
}.

(** Calls to collaborators, in the order they are made. *)
Inductive Call : Type :=
| CallMergeConfigs (includeConfig : JsVal)
| CallExtractDefaultMessages (path : JsVal) (config : Config)
| CallExtractUntrackedMessages (path : string) (config : Config)
| CallIntegrateLocaleFiles (messages : Messages) (options : IntegrateOptions).

(** Arguments of [log.error]. *)
Inductive LogEntry : Type :=
| LogText (s : string)
| LogError (e : JsErr).

(** Everything a run can change: the task context ([messages] and the
    [errors] array of the shared [ErrorReporter]), [process.exitCode],
    the error log and the calls made so far. *)
Record World : Type := {
  messages : Messages;
  reporter : list string;
  exitCode : option Z;
  logged : list LogEntry;
  calls : list Call
}.

Definition set_context (m : Messages) (r : list string) (w : World) : World :=
  {| messages := m; reporter := r; exitCode := exitCode w;
     logged := logged w; calls := calls w |}.

Definition set_reporter (r : list string) (w : World) : World :=
  set_context (messages w) r w.

Definition set_exitCode (c : Z) (w : World) : World :=
  {| messages := messages w; reporter := reporter w; exitCode := Some c;
     logged := logged w; calls := calls w |}.

Definition log_error (entries : list LogEntry) (w : World) : World :=
  {| messages := messages w; reporter := reporter w; exitCode := exitCode w;
     logged := logged w ++ entries; calls := calls w |}.

Definition record_call (c : Call) (w : World) : World :=
  {| messages := messages w; reporter := reporter w; exitCode := exitCode w;
     logged := logged w; calls := calls w ++ [c] |}.

(** The code a process that ends normally exits with: [process.exitCode]
    when it was set, 0 otherwise. *)
Definition exitStatus (w : World) : Z :=
  match exitCode w with Some c => c | None => 0%Z end.

(* ================================================================= *)
(** ** The task runner

    [Listr] is the npm package [listr], imported by the script; it is not
    part of the repository.  The model follows what the package does with
    the constructs the script uses:

    - a task object is read for [title], [task] and [enabled]; any other
      property of a task object (the script writes [exitOnError] on the
      scan sub-tasks) is kept in the model but nothing reads it;
    - the options of a list give [concurrent] (default [false]) and
      [exitOnError] (default [undefined], which counts as "exit");
    - a task function either settles (resolves or rejects) or returns a
      list, which is then run on the same context with
      [exitOnError] taken from its own options when given there and from
      the options of the enclosing list otherwise;
    - a failed task hands its error to the list ([report]); the error is
      thrown on unless it is a [ListrError] or the list has
      [exitOnError === false];
    - a list that finished with collected errors rejects with a
      [ListrError] carrying them.

    Tasks of a concurrent list are all launched (with [enabled] evaluated
    at launch); each is run to completion in launch order, interleavings
    are not modelled. *)

Inductive Task : Type :=
| MkTask (title : string) (enabled : option (World -> bool))
         (exitOnErrorProp : option bool) (task : World -> TaskResult)
with TaskResult : Type :=
| Settled (w : World) (rejection : option JsErr)
| SubList (w : World) (l : Listr)
with Listr : Type :=
| NewListr (tasks : list Task) (concurrent : bool) (exitOnError : option bool).

Definition task_title (t : Task) : string :=
  match t with MkTask ti _ _ _ => ti end.

Definition task_fn (t : Task) : World -> TaskResult :=
  match t with MkTask _ _ _ f => f end.

(** [task.isEnabled()] after [check(context)]. *)
Definition isEnabled (t : Task) (w : World) : bool :=
  match t with
  | MkTask _ None _ _ => true
  | MkTask _ (Some enabledFn) _ _ => enabledFn w
  end.

Definition listr_tasks (l : Listr) : list Task :=
  match l with NewListr ts _ _ => ts end.

Definition listr_exitOnError (l : Listr) : option bool :=
  match l with NewListr _ _ e => e end.

(** [exitOnError !== false]. *)
Definition exits (exitOnError : option bool) : bool :=
  match exitOnError with Some false => false | _ => true end.

(** [TaskWrapper.report]: a [ListrError] is flattened into the list's
    errors, anything else is appended. *)
Definition report (errors : list JsErr) (e : JsErr) : list JsErr :=
  match e with
  | ListrError errs => errors ++ errs
  | Thrown _ _ _ => errors ++ [e]
  end.

(** The state of one list while it runs: the world, the titles of the
    tasks started so far (over the whole tree), the errors collected by
    this list, and the [exitOnError] entry of this list's options object
    (merging a sub-list's options writes into it). *)
Record RunState : Type := {
  world : World;
  started : list string;
  errors : list JsErr;
  optionsExit : option bool
}.

(** The [catch] of [Task.run]. *)
Definition taskFailed (listExit : option bool) (e : JsErr) (st : RunState)
    : RunState * option JsErr :=
  let st' := {| world := world st; started := started st;
                errors := report (errors st) e;
                optionsExit := optionsExit st |} in
  if instanceofListrError e then (st', None)
  else if exits listExit then (st', Some e)
  else (st', None).

(** How a list ends once its tasks are done: with the error that stopped
    it, else with a [ListrError] when errors were collected. *)
Definition listrSettle (stopped : option JsErr) (errs : list JsErr) : option JsErr :=
  match stopped with
  | Some e => Some e
  | None => match errs with [] => None | _ :: _ => Some (ListrError errs) end
  end.

Definition firstError (a b : option JsErr) : option JsErr :=
  match a with Some _ => a | None => b end.

Section Loops.

(** How the list at hand runs one of its tasks. *)
Variable runOne : Task -> RunState -> RunState * option JsErr.

(** A list that is not concurrent: the next task starts when the one
    before it is done, [enabled] is evaluated just before; a task that
    throws stops the list. *)
Fixpoint oneByOne (ts : list Task) (st : RunState) : RunState * option JsErr :=
  match ts with
  | [] => (st, None)
  | t :: rest =>
    if isEnabled t (world st) then
      match runOne t st with
      | (st', Some e) => (st', Some e)
      | (st', None) => oneByOne rest st'
      end
    else oneByOne rest st
  end.

(** A concurrent list: every task enabled in the world [w0] the list
    started in is launched; the list rejects with the first error thrown
    on. *)
Fixpoint launchAll (w0 : World) (ts : list Task) (st : RunState)
    : RunState * option JsErr :=
  match ts with
  | [] => (st, None)
  | t :: rest =>
    if isEnabled t w0 then
      let '(st', thrown) := runOne t st in
      let '(st'', later) := launchAll w0 rest st' in
      (st'', firstError thrown later)
    else launchAll w0 rest st
  end.

End Loops.

(** [runTask t listExit st] runs one task of a list whose [exitOnError]
    is [listExit]; [runListr l exit w begun] is [l.run(context)] with
    [l.exitOnError = exit], [begun] being the titles started before. *)
Fixpoint runTask (t : Task) (listExit : option bool) (st : RunState) {struct t}
    : RunState * option JsErr :=
  match t with
  | MkTask ti _ _ fn =>
    let begun := started st ++ [ti] in
    match fn (world st) with
    | Settled w' None =>
      ({| world := w'; started := begun; errors := errors st;
          optionsExit := optionsExit st |}, None)
    | Settled w' (Some e) =>
      taskFailed listExit e
        {| world := w'; started := begun; errors := errors st;
           optionsExit := optionsExit st |}
    | SubList w' l =>
      let merged := match listr_exitOnError l with
                    | Some b => Some b
                    | None => optionsExit st
                    end in
      let '(w'', started'', rejection) := runListr l merged w' begun in
      let st' := {| world := w''; started := started''; errors := errors st;
                    optionsExit := merged |} in
      match rejection with
      | None => (st', None)
      | Some e => taskFailed listExit e st'
      end
    end
  end
with runListr (l : Listr) (exit : option bool) (w : World) (begun : list string)
    {struct l} : World * list string * option JsErr :=
  match l with
  | NewListr ts concurrent ownExit =>
    let init := {| world := w; started := begun; errors := [];
                   optionsExit := ownExit |} in
    let '(st, stopped) :=
      if concurrent
      then launchAll (fun t => runTask t exit) w ts init
      else oneByOne (fun t => runTask t exit) ts init in
    (world st, started st, listrSettle stopped (errors st))
  end.

(** [list.run(context)] called on a list the script built itself. *)
Definition run (l : Listr) (w : World) : World * list string * option JsErr :=
  runListr l (listr_exitOnError l) w [].

(* ================================================================= *)
(** ** The i18n check script *)

(** The flags the callback destructures; a flag that was not given is
    [JUndefined]. *)
Record RunFlags : Type := {
  flag_ignoreIncompatible : JsVal;
  flag_ignoreMissing : JsVal;
  flag_ignoreUnused : JsVal;
  flag_includeConfig : JsVal;
  flag_ignoreUntracked : JsVal;
  flag_fix : JsVal;
  flag_path : JsVal
}.

(** How the callback ends: it returns, it throws, or it calls
    [process.exit()]. *)
Inductive Outcome : Type :=
| Returned
| Threw (e : JsErr)
| ProcessExit.

(** The modules the script imports. *)
Class Collaborators : Type := {
  (** [chalk.white.bgRed] *)
  chalk_white_bgRed : string -> string;
  createFailError : string -> JsErr;
  mergeConfigs : JsVal -> JsErr + Config;
  (** returns the extraction sub-tasks *)
  extractDefaultMessages : JsVal -> Config -> list Task;
  (** gets the reporter's [errors], gives them back as it leaves them,
      and may reject *)
  extractUntrackedMessages : string -> Config -> list string -> list string * option JsErr;
  integrateLocaleFiles : Messages -> IntegrateOptions -> option JsErr
}.

(** The world the task list is run in: the config has been loaded, the
    context is new. *)
Definition listStart (flags : RunFlags) (w : World) : World :=
  set_context [] [] (record_call (CallMergeConfigs (flag_includeConfig flags)) w).

Section Script.

Context {C : Collaborators}.

Definition i18nError (text : string) : string :=
  (chalk_white_bgRed " I18N ERROR " ++ text)%string.

Definition incompatibleFlagsMessage : string :=
  i18nError " none of the --ignore-incompatible, --ignore-unused or --ignore-missing or --ignore-untracked is allowed when --fix is set.".

Definition requireValueMessage : string :=
  i18nError " --path and --include-config require a value".

Definition fixValueMessage : string :=
  i18nError " --fix can't have a value".

Definition ignoreUntrackedValueMessage : string :=
  i18nError " --ignore-untracked can't have a value".

(** [fix = false] in the destructuring pattern. *)
Definition fixOf (flags : RunFlags) : JsVal :=
  withDefault (JBool false) (flag_fix flags).

(** The four checks at the head of the callback, in order; [Some m] is
    the message of the fail error thrown. *)
Definition validateFlags (flags : RunFlags) : option string :=
  if truthy (fixOf flags) &&
     (isDefined (flag_ignoreIncompatible flags) ||
      isDefined (flag_ignoreUnused flags) ||
      isDefined (flag_ignoreMissing flags) ||
      isDefined (flag_ignoreUntracked flags))
  then Some incompatibleFlagsMessage
  else if JsType_eqb (typeof (flag_path flags)) TBoolean ||
          JsType_eqb (typeof (flag_includeConfig flags)) TBoolean
  then Some requireValueMessage
  else if negb (JsType_eqb (typeof (fixOf flags)) TBoolean)
  then Some fixValueMessage
  else if negb (JsType_eqb (typeof (flag_ignoreUntracked flags)) TUndefined) &&
          negb (JsType_eqb (typeof (flag_ignoreUntracked flags)) TBoolean)
  then Some ignoreUntrackedValueMessage
  else None.

Definition extractDefaultMessagesTasks (flags : RunFlags) (config : Config) : list Task :=
  extractDefaultMessages (flag_path flags) config.

(** The object literal passed to [integrateLocaleFiles]. *)
Definition integrateOptions (flags : RunFlags) (translationsPath : string)
    : IntegrateOptions :=
  {| sourceFileName := translationsPath;
     targetFileName := if truthy (fixOf flags) then JString translationsPath
                       else JUndefined;
     dryRun := js_not (fixOf flags);
     ignoreIncompatible := js_or (fixOf flags) (js_bool (flag_ignoreIncompatible flags));
     ignoreUnused := js_or (fixOf flags) (js_bool (flag_ignoreUnused flags));
     ignoreMissing := js_or (fixOf flags) (js_bool (flag_ignoreMissing flags)) |}.

Definition compatibilityCheck (flags : RunFlags) (translationsPath : string)
    : World -> TaskResult :=
  fun w =>
    let options := integrateOptions flags translationsPath in
    Settled (record_call (CallIntegrateLocaleFiles (messages w) options) w)
            (integrateLocaleFiles (messages w) options).

Definition compatibiltyChecksTasks (flags : RunFlags) (config : Config) : list Task :=
  map (fun translationsPath =>
         MkTask ("Compatibility check with " ++ translationsPath)%string None None
                (compatibilityCheck flags translationsPath))
      (translations config).

Definition srcCodePaths : list string := ["./src"; "./packages"; "./x-pack"].

Definition untrackedCheck (config : Config) (srcPath : string) : World -> TaskResult :=
  fun w =>
    let '(entries, rejection) := extractUntrackedMessages srcPath config (reporter w) in
    Settled (set_reporter entries
               (record_call (CallExtractUntrackedMessages srcPath config) w))
            rejection.

(** The [reporter] parameter of the source is the reporter of the task
    context, that is [reporter] of the world the sub-task runs in. *)
Definition untrackedMessagesTasks (config : Config) : list Task :=
  map (fun srcPath =>
         MkTask ("Checking untracked messages in " ++ srcPath)%string None (Some false)
                (untrackedCheck config srcPath))
      srcCodePaths.

Definition untrackedStage (flags : RunFlags) (config : Config) : Task :=
  MkTask "Checking untracked messages"
         (Some (fun _ => negb (truthy (flag_ignoreUntracked flags)))) None
         (fun w => SubList w (NewListr (untrackedMessagesTasks config) false (Some true))).

Definition extractionStage (flags : RunFlags) (config : Config) : Task :=
  MkTask "Extracting Default Messages" None None
         (fun w => SubList (record_call (CallExtractDefaultMessages (flag_path flags) config) w)
                           (NewListr (extractDefaultMessagesTasks flags config) false (Some false))).

Definition compatibilityStage (flags : RunFlags) (config : Config) : Task :=
  MkTask "Compatibility Checks" None None
         (fun w => SubList w (NewListr (compatibiltyChecksTasks flags config) true (Some false))).

(** [list] of the source. *)
Definition taskList (flags : RunFlags) (config : Config) : Listr :=
  NewListr [untrackedStage flags config;
            extractionStage flags config;
            compatibilityStage flags config]
           false (Some true).

(** The [catch] block around [list.run]. *)
Definition catchBlock (error : JsErr) (w : World) : World * Outcome :=
  let w1 := set_exitCode 1 w in
  match err_errors error with
  | None =>
    (log_error [LogText "Unhandled exception!"; LogError error] w1, ProcessExit)
  | Some errs =>
    if String.eqb (err_name error) "ListrError" && negb (length (reporter w1) =? 0)%nat
    then (w1, Threw (createFailError (join (newline ++ newline)%string (reporter w1))))
    else (log_error (map LogError errs) w1, Returned)
  end.

(** The callback passed to [run]: the final world, the titles of the
    tasks the runner started, and how the callback ended. *)
Definition runCallback (flags : RunFlags) (w : World) : World * list string * Outcome :=
  match validateFlags flags with
  | Some message => (w, [], Threw (createFailError message))
  | None =>
    let w1 := record_call (CallMergeConfigs (flag_includeConfig flags)) w in
    match mergeConfigs (flag_includeConfig flags) with
    | inl e => (w1, [], Threw e)
    | inr config =>
      if (length (translations config) =? 0)%nat then (w1, [], Returned)
      else
        let '(w2, begun, rejection) :=
          run (taskList flags config) (set_context [] [] w1) in
        match rejection with
        | None => (w2, begun, Returned)
        | Some error =>
          let '(w3, outcome) := catchBlock error w2 in
          (w3, begun, outcome)
        end
    end
  end.

End Script.

(* ================================================================= *)
(** ** Concrete collaborators for examples *)

Definition plainError (message : string) : JsErr := Thrown "Error" message None.

Definition emptyWorld : World :=
  {| messages := []; reporter := []; exitCode := None; logged := []; calls := [] |}.

Definition noFlags : RunFlags :=
  {| flag_ignoreIncompatible := JUndefined; flag_ignoreMissing := JUndefined;
     flag_ignoreUnused := JUndefined; flag_includeConfig := JUndefined;
     flag_ignoreUntracked := JUndefined; flag_fix := JUndefined;
     flag_path := JUndefined |}.

Definition frenchOnly : Config := {| translations := ["translations/fr.json"] |}.

(** Collaborators built from: the config [mergeConfigs] returns, the
    extraction sub-tasks, what the untracked-message scan does on a
    source path, and what the merge routine answers for a translation
    file.  [chalk] leaves the text as it is and a fail error is a plain
    [Error]. *)
Definition collaborators (config : Config) (extraction : list Task)
    (scan : string -> list string -> list string * option JsErr)
    (integrate : string -> option JsErr) : Collaborators :=
  {| chalk_white_bgRed := fun s => s;
     createFailError := plainError;
     mergeConfigs := fun _ => inr config;
     extractDefaultMessages := fun _ _ => extraction;
     extractUntrackedMessages := fun srcPath _ entries => scan srcPath entries;
     integrateLocaleFiles := fun _ options => integrate (sourceFileName options) |}.

Definition scanClean : string -> list string -> list string * option JsErr :=
  fun _ entries => (entries, None).

Definition integrateClean : string -> option JsErr := fun _ => None.

(** A scan that finds an untracked message under [./packages]: it
    records one entry and rejects. *)
Definition scanPackagesFails : string -> list string -> list string * option JsErr :=
  fun srcPath entries =>
    if String.eqb srcPath "./packages"
    then (entries ++ ["untracked message in ./packages"],
          Some (plainError "untracked message in ./packages"))
    else (entries, None).

(** A scan that records one entry under [./src] and rejects with an
    error that carries an [errors] array but is no [ListrError]. *)
Definition scanSrcAggregate : string -> list string -> list string * option JsErr :=
  fun srcPath entries =>
    if String.eqb srcPath "./src"
    then (entries ++ ["untracked message in ./src"],
          Some (Thrown "AggregateError" "scan failed" (Some [plainError "first"])))
    else (entries, None).

Definition scanSrcThrows : string -> list string -> list string * option JsErr :=
  fun srcPath entries =>
    if String.eqb srcPath "./src" then (entries, Some (plainError "EACCES")) else (entries, None).

Definition integrateRejects : string -> option JsErr :=
  fun _ => Some (plainError "incompatible translation").

Definition resolves (ti : string) : Task :=
  MkTask ti None None (fun w => Settled w None).

Definition rejects (ti : string) : Task :=
  MkTask ti None None (fun w => Settled w (Some (plainError ti))).

(** An extraction sub-task that reports to the shared reporter and
    rejects. *)
Definition reportsAndRejects (ti : string) : Task :=
  MkTask ti None None
         (fun w => Settled (set_reporter (reporter w ++ [ti]) w) (Some (plainError ti))).

Definition threeExtractions : list Task :=
  [resolves "extract a"; rejects "extract b"; resolves "extract c"].

Definition fixWithIgnoreUnused : RunFlags :=
  {| flag_ignoreIncompatible := JUndefined; flag_ignoreMissing := JUndefined;
     flag_ignoreUnused := JBool false; flag_includeConfig := JUndefined;
     flag_ignoreUntracked := JUndefined; flag_fix := JBool true;
     flag_path := JUndefined |}.

Definition fixValueWithIgnoreMissing : RunFlags :=
  {| flag_ignoreIncompatible := JUndefined; flag_ignoreMissing := JBool true;
     flag_ignoreUnused := JUndefined; flag_includeConfig := JUndefined;
     flag_ignoreUntracked := JUndefined; flag_fix := JString "yes";
     flag_path := JUndefined |}.

Definition fixOnly : RunFlags :=
  {| flag_ignoreIncompatible := JUndefined; flag_ignoreMissing := JUndefined;
     flag_ignoreUnused := JUndefined; flag_includeConfig := JUndefined;
     flag_ignoreUntracked := JUndefined; flag_fix := JBool true;
     flag_path := JUndefined |}.

Definition quiet : Collaborators := collaborators frenchOnly [] scanClean integrateClean.

Definition extractionFails : Collaborators :=
  collaborators frenchOnly threeExtractions scanClean integrateClean.

Definition extractionReports : Collaborators :=
  collaborators frenchOnly [reportsAndRejects "missing id"] scanClean integrateClean.

Definition mergeRejects : Collaborators :=
  collaborators frenchOnly [] scanClean integrateRejects.

Definition scanThrows : Collaborators :=
  collaborators frenchOnly [] scanSrcThrows integrateClean.

Definition scanAggregate : Collaborators :=
  collaborators frenchOnly [] scanSrcAggregate integrateClean.

Definition packagesFail : Collaborators :=
  collaborators frenchOnly [] scanPackagesFails integrateClean.

(** A job fixture: headers, layout and request are strings, the world is
    a millisecond clock that encryption advances. *)
Definition clockJob : JobCollaborators string string nat :=
  {| crypto_encrypt := fun headers now => (S now, inr ("encrypted:" ++ headers)%string);
     validateUrls := fun urls now =>
       (now, if existsb (String.prefix "http") urls
             then Some (plainError "Found invalid URL(s), all URLs must be relative")
             else None);
     getBasePath := fun request now => (now, request);
     Date_toISOString := fun now =>
       if (now =? 0)%nat then "1970-01-01T00:00:00.000Z" else "1970-01-01T00:00:00.001Z" |}.

Definition dashboardJob : JobParamsPNG string :=
  {| objectType := "dashboard"; title := "Sales"; relativeUrl := "/app/kibana#/dashboard/1";
     browserTimezone := "UTC"; layout := "png" |}.

(* ================================================================= *)
(** ** Properties stated by the specification, as predicates *)

(** Some ignore flag was given on the command line, with whatever value. *)
Definition someIgnoreFlagSet (flags : RunFlags) : Prop :=
  flag_ignoreIncompatible flags <> JUndefined \/
  flag_ignoreUnused flags <> JUndefined \/
  flag_ignoreMissing flags <> JUndefined \/
  flag_ignoreUntracked flags <> JUndefined.

(** A sub-task that settles (it returns no list of its own) and has no
    [enabled] guard. *)
Definition settles (t : Task) : Prop :=
  match t with
  | MkTask _ en _ fn => en = None /\ forall w, exists w' r, fn w = Settled w' r
  end.

(** A sub-task that rejects whatever the context. *)
Definition alwaysRejects (t : Task) : Prop :=
  forall w, exists w' e, task_fn t w = Settled w' (Some e).

(** "Where sub-task i fails, no sub-task after i is executed", for the
    sub-tasks [ts] of a stage and the titles [begun] of the tasks the
    run started. *)
Definition abortsAfterFailure (ts : list Task) (begun : list string) : Prop :=
  forall i j t t',
    nth_error ts i = Some t -> alwaysRejects t ->
    nth_error ts j = Some t' -> (i < j)%nat ->
    ~ In (task_title t') begun.

(** "A run-level error with a non-empty error set, met with a non-empty
    reporter, ends in one aggregate failure and nothing more is logged",
    for the run of [flags] from [w]. *)
Definition reportedFailure {C : Collaborators} (flags : RunFlags) (w : World) : Prop :=
  forall config w2 begun error errs,
    validateFlags flags = None ->
    mergeConfigs (flag_includeConfig flags) = inr config ->
    translations config <> [] ->
    run (taskList flags config) (listStart flags w) = (w2, begun, Some error) ->
    err_errors error = Some errs -> errs <> [] ->
    reporter w2 <> [] ->
    runCallback flags w =
      (set_exitCode 1 w2, begun,
       Threw (createFailError (join (newline ++ newline)%string (reporter w2)))).

(** The state a list starts in. *)
Definition freshList (w : World) (exitOnError : option bool) : RunState :=
  {| world := w; started := []; errors := []; optionsExit := exitOnError |}.

(* ================================================================= *)
(** ** Further predicates and examples *)

Definition isBoolean (v : JsVal) : Prop := exists b, v = JBool b.

(** The flags the four checks of the callback let through: fix is absent
    or a boolean, and when it is true no ignore flag is given; path and
    include-config are not booleans; ignore-untracked is absent or a
    boolean. *)
Definition acceptedFlags (flags : RunFlags) : Prop :=
  (flag_fix flags = JUndefined \/ flag_fix flags = JBool false \/
   (flag_fix flags = JBool true /\ ~ someIgnoreFlagSet flags)) /\
  ~ isBoolean (flag_path flags) /\
  ~ isBoolean (flag_includeConfig flags) /\
  (flag_ignoreUntracked flags = JUndefined \/ isBoolean (flag_ignoreUntracked flags)).

(** The first check of the callback fires. *)
Definition fixClashes (flags : RunFlags) : Prop :=
  truthy (fixOf flags) = true /\ someIgnoreFlagSet flags.

(** [flags] with [fix] given as [value]. *)
Definition withFix (value : JsVal) (flags : RunFlags) : RunFlags :=
  {| flag_ignoreIncompatible := flag_ignoreIncompatible flags;
     flag_ignoreMissing := flag_ignoreMissing flags;
     flag_ignoreUnused := flag_ignoreUnused flags;
     flag_includeConfig := flag_includeConfig flags;
     flag_ignoreUntracked := flag_ignoreUntracked flags;
     flag_fix := value;
     flag_path := flag_path flags |}.

Definition pathWithoutValue : RunFlags :=
  {| flag_ignoreIncompatible := JUndefined; flag_ignoreMissing := JUndefined;
     flag_ignoreUnused := JBool true; flag_includeConfig := JString "extra/.i18nrc.json";
     flag_ignoreUntracked := JUndefined; flag_fix := JUndefined;
     flag_path := JBool true |}.

Definition ignoreUntrackedWithValue : RunFlags :=
  {| flag_ignoreIncompatible := JUndefined; flag_ignoreMissing := JUndefined;
     flag_ignoreUnused := JUndefined; flag_includeConfig := JUndefined;
     flag_ignoreUntracked := JString "yes"; flag_fix := JUndefined;
     flag_path := JString "src/plugins" |}.

Definition emptyFixWithIgnoreMissing : RunFlags :=
  {| flag_ignoreIncompatible := JUndefined; flag_ignoreMissing := JBool true;
     flag_ignoreUnused := JUndefined; flag_includeConfig := JUndefined;
     flag_ignoreUntracked := JUndefined; flag_fix := JString "";
     flag_path := JUndefined |}.

Definition ignoreIncompatibleAsText : RunFlags :=
  {| flag_ignoreIncompatible := JString "false"; flag_ignoreMissing := JUndefined;
     flag_ignoreUnused := JUndefined; flag_includeConfig := JUndefined;
     flag_ignoreUntracked := JUndefined; flag_fix := JUndefined;
     flag_path := JUndefined |}.

(** Several calls recorded in order. *)
Definition record_calls (cs : list Call) (w : World) : World :=
  fold_left (fun w c => record_call c w) cs w.





Definition scanTitles : list string :=
  map (fun p => ("Checking untracked messages in " ++ p)%string) srcCodePaths.


Definition twoLocales : Config :=
  {| translations := ["translations/fr.json"; "translations/ja.json"] |}.

(** A merge routine that rejects the French file only. *)
Definition integrateFrenchFails : string -> option JsErr :=
  fun source =>
    if String.eqb source "translations/fr.json"
    then Some (plainError "incompatible translation in fr") else None.

(** A scan that records the path it was given and resolves. *)
Definition scanRecords : string -> list string -> list string * option JsErr :=
  fun srcPath entries => (entries ++ [srcPath], None).

Definition frenchFails : Collaborators :=
  collaborators twoLocales threeExtractions scanClean integrateFrenchFails.

Definition scanRecording : Collaborators :=
  collaborators frenchOnly [] scanRecords integrateClean.

Definition ignoreUntrackedSet : RunFlags :=
  {| flag_ignoreIncompatible := JUndefined; flag_ignoreMissing := JUndefined;
     flag_ignoreUnused := JUndefined; flag_includeConfig := JUndefined;
     flag_ignoreUntracked := JBool true; flag_fix := JUndefined;
     flag_path := JUndefined |}.

Definition absoluteUrlJob : JobParamsPNG string :=
  {| objectType := "dashboard"; title := "Sales"; relativeUrl := "http://example.org/";
     browserTimezone := "UTC"; layout := "png" |}.

(** A scan that rejects under [./src] with an error whose [errors] array
    is empty. *)
Definition scanSrcEmptyErrors : string -> list string -> list string * option JsErr :=
  fun srcPath entries =>
    if String.eqb srcPath "./src"
    then (entries, Some (Thrown "ValidationError" "nothing to report" (Some [])))
    else (entries, None).

Definition scanEmptyErrors : Collaborators :=
  collaborators frenchOnly [] scanSrcEmptyErrors integrateClean.



(* ================================================================= *)
(** * Theorems *)

(** ** createJob *)

Section CreateJobFacts.

Context {Headers Layout Request Env : Type}.
Context {JC : JobCollaborators Headers Request Env}.

(** When encryption fails the URL is never validated: the failure is the
    result, in the world encryption left. *)
Lemma createJob_encrypt_rejects (params : JobParamsPNG Layout)
    (headers : Headers) (request : Request) (env env1 : Env) (e : JsErr) :
  crypto_encrypt headers env = (env1, inl e) ->
  createJob params headers request env = (env1, inl e).
Proof.
  intros He. unfold createJob. rewrite He. reflexivity.
Qed.

(** An invalid URL, found after encryption, is thrown on. *)
Lemma createJob_invalid_url (params : JobParamsPNG Layout)
    (headers : Headers) (request : Request) (env env1 env2 : Env)
    (encrypted : string) (e : JsErr) :
  crypto_encrypt headers env = (env1, inr encrypted) ->
  validateUrls [relativeUrl params] env1 = (env2, Some e) ->
  createJob params headers request env = (env2, inl e).
Proof.
  intros He Hv. unfold createJob. rewrite He, Hv. reflexivity.
Qed.

(** C9.  createJob encrypts the headers first (in the world it is called
    in), validates the relative URL next (in the world encryption left),
    and, both having succeeded, returns the job document: objectType,
    title, relativeUrl, browserTimezone and layout are the inputs,
    headers is the encrypted serialization, basePath is the request's,
    and forceNow is the clock read last, in the world of the return. *)
Theorem createJob_marshals (params : JobParamsPNG Layout)
    (headers : Headers) (request : Request) (env env1 env2 env3 : Env)
    (encrypted basePath : string) :
  crypto_encrypt headers env = (env1, inr encrypted) ->
  validateUrls [relativeUrl params] env1 = (env2, None) ->
  getBasePath request env2 = (env3, basePath) ->
  createJob params headers request env =
    (env3,
     inr {| job_objectType := objectType params;
            job_title := title params;
            job_relativeUrl := relativeUrl params;
            job_headers := encrypted;
            job_browserTimezone := browserTimezone params;
            job_layout := layout params;
            job_basePath := basePath;
            job_forceNow := Date_toISOString env3 |}).
Proof.
  intros He Hv Hb. unfold createJob. rewrite He, Hv, Hb. reflexivity.
Qed.

End CreateJobFacts.

Lemma createJob_marshals_witness :
  createJob (JC := clockJob) dashboardJob "cookie: sid" "/base" 0%nat =
    (1%nat,
     inr {| job_objectType := "dashboard";
            job_title := "Sales";
            job_relativeUrl := "/app/kibana#/dashboard/1";
            job_headers := "encrypted:cookie: sid";
            job_browserTimezone := "UTC";
            job_layout := "png";
            job_basePath := "/base";
            job_forceNow := "1970-01-01T00:00:00.001Z" |}).
Proof.
  apply (createJob_marshals (JC := clockJob) dashboardJob "cookie: sid" "/base"
           0%nat 1%nat 1%nat 1%nat "encrypted:cookie: sid" "/base");
    reflexivity.
Defined.

(** ** Flag validation *)

Lemma typeof_boolean (v : JsVal) :
  JsType_eqb (typeof v) TBoolean = true -> v = JBool (truthy v).
Proof.
  destruct v; simpl; intros H; try discriminate H; reflexivity.
Qed.

Lemma isDefined_true (v : JsVal) : v <> JUndefined -> isDefined v = true.
Proof.
  destruct v; simpl; intros H; [contradiction H|..]; reflexivity.
Qed.

Lemma string_app_inv_head (p a b : string) :
  (p ++ a)%string = (p ++ b)%string -> a = b.
Proof.
  induction p as [|c p IH]; simpl; intros H.
  - exact H.
  - injection H as H. exact (IH H).
Qed.

Section ValidationFacts.

Context {C : Collaborators}.

Lemma someIgnoreFlagSet_defined (flags : RunFlags) :
  someIgnoreFlagSet flags ->
  isDefined (flag_ignoreIncompatible flags) ||
  isDefined (flag_ignoreUnused flags) ||
  isDefined (flag_ignoreMissing flags) ||
  isDefined (flag_ignoreUntracked flags) = true.
Proof.
  intros [H | [H | [H | H]]]; rewrite (isDefined_true _ H);
    repeat rewrite orb_true_r; reflexivity.
Qed.

(** The first check only asks whether [fix] is truthy. *)
Lemma validateFlags_incompatible (flags : RunFlags) :
  truthy (fixOf flags) = true -> someIgnoreFlagSet flags ->
  validateFlags flags = Some incompatibleFlagsMessage.
Proof.
  intros Hfix Hset. unfold validateFlags.
  rewrite Hfix, (someIgnoreFlagSet_defined _ Hset). reflexivity.
Qed.

Lemma truthy_fixOf (flags : RunFlags) :
  truthy (flag_fix flags) = true -> truthy (fixOf flags) = true.
Proof.
  unfold fixOf. destruct (flag_fix flags); simpl; intros H; try discriminate H; exact H.
Qed.

(** Flags that pass validation have a boolean [fix]. *)
Lemma validateFlags_fix_boolean (flags : RunFlags) :
  validateFlags flags = None -> fixOf flags = JBool (truthy (fixOf flags)).
Proof.
  unfold validateFlags. intros H. apply typeof_boolean.
  destruct (truthy (fixOf flags) && _); [discriminate H|].
  destruct (_ || _); [discriminate H|].
  destruct (JsType_eqb (typeof (fixOf flags)) TBoolean); [reflexivity|discriminate H].
Qed.

Lemma messages_differ : incompatibleFlagsMessage <> fixValueMessage.
Proof.
  unfold incompatibleFlagsMessage, fixValueMessage, i18nError. intros H.
  apply string_app_inv_head in H. discriminate H.
Qed.

(** With no ignore flag given, a [fix] that carries a value is what the
    third check is for. *)
Lemma fix_with_value_alone (flags : RunFlags) :
  flag_ignoreIncompatible flags = JUndefined -> flag_ignoreUnused flags = JUndefined ->
  flag_ignoreMissing flags = JUndefined -> flag_ignoreUntracked flags = JUndefined ->
  JsType_eqb (typeof (flag_path flags)) TBoolean = false ->
  JsType_eqb (typeof (flag_includeConfig flags)) TBoolean = false ->
  JsType_eqb (typeof (fixOf flags)) TBoolean = false ->
  validateFlags flags = Some fixValueMessage.
Proof.
  intros H1 H2 H3 H4 Hp Hi Hf. unfold validateFlags.
  rewrite H1, H2, H3, H4, Hp, Hi, Hf. simpl. rewrite andb_false_r. reflexivity.
Qed.

(** C4.  Whenever fix is true and one of the four ignore flags is given
    (true or false), the callback throws the incompatible-flags fail
    error, in the world it was called in: the config is not loaded (no
    call is recorded) and no task is started. *)
Theorem fix_excludes_ignore_flags (flags : RunFlags) (w : World) :
  flag_fix flags = JBool true ->
  someIgnoreFlagSet flags ->
  runCallback flags w = (w, [], Threw (createFailError incompatibleFlagsMessage)).
Proof.
  intros Hfix Hset. unfold runCallback.
  rewrite (validateFlags_incompatible flags); [reflexivity| |exact Hset].
  unfold fixOf. rewrite Hfix. reflexivity.
Qed.

(** C10.  Whenever fix holds a truthy value that is not a boolean and one
    of the ignore flags is given, validation answers with the
    incompatible-flags message, which is not the message of the fix-type
    check, and the callback throws it before anything else happens. *)
Theorem incompatible_flags_checked_before_fix_type (flags : RunFlags) (w : World) :
  truthy (flag_fix flags) = true ->
  typeof (flag_fix flags) <> TBoolean ->
  someIgnoreFlagSet flags ->
  validateFlags flags = Some incompatibleFlagsMessage /\
  validateFlags flags <> Some fixValueMessage /\
  runCallback flags w = (w, [], Threw (createFailError incompatibleFlagsMessage)).
Proof.
  intros Hfix _ Hset.
  assert (Hv : validateFlags flags = Some incompatibleFlagsMessage)
    by (apply validateFlags_incompatible; [apply truthy_fixOf; exact Hfix | exact Hset]).
  split; [exact Hv|]. split.
  - rewrite Hv. intros H. injection H as H. exact (messages_differ H).
  - unfold runCallback. rewrite Hv. reflexivity.
Qed.

(** C5.  Whenever the flags pass validation and the loaded config has no
    translation path, the callback returns right after loading the
    config: the only call made is the one to mergeConfigs, no task of any
    stage is started, and the exit code is left alone, so a process whose
    exit code was not set exits with 0. *)
Theorem no_translations_no_stage (flags : RunFlags) (config : Config) (w : World) :
  validateFlags flags = None ->
  mergeConfigs (flag_includeConfig flags) = inr config ->
  translations config = [] ->
  exitCode w = None ->
  runCallback flags w =
    (record_call (CallMergeConfigs (flag_includeConfig flags)) w, [], Returned) /\
  exitStatus (record_call (CallMergeConfigs (flag_includeConfig flags)) w) = 0%Z.
Proof.
  intros Hv Hm Ht Hc. split.
  - unfold runCallback. rewrite Hv, Hm, Ht. reflexivity.
  - unfold exitStatus. simpl. rewrite Hc. reflexivity.
Qed.

(** C6.  For flags that passed validation and any translation path of the
    config, the list of compatibility checks holds the sub-task of that
    path, and the sub-task calls the merge routine on the messages of the
    context with: the path as source file; the path as target file when
    fix is set and undefined otherwise; dryRun = not fix; and
    ignoreIncompatible, ignoreUnused, ignoreMissing each = fix or the
    flag of that name. *)
Theorem compatibility_check_options (flags : RunFlags) (config : Config)
    (translationsPath : string) (w : World) :
  validateFlags flags = None ->
  In translationsPath (translations config) ->
  let fixSet := truthy (fixOf flags) in
  let options :=
    {| sourceFileName := translationsPath;
       targetFileName := if fixSet then JString translationsPath else JUndefined;
       dryRun := JBool (negb fixSet);
       ignoreIncompatible := JBool (fixSet || truthy (flag_ignoreIncompatible flags));
       ignoreUnused := JBool (fixSet || truthy (flag_ignoreUnused flags));
       ignoreMissing := JBool (fixSet || truthy (flag_ignoreMissing flags)) |} in
  In (MkTask ("Compatibility check with " ++ translationsPath)%string None None
             (compatibilityCheck flags translationsPath))
     (compatibiltyChecksTasks flags config) /\
  compatibilityCheck flags translationsPath w =
    Settled (record_call (CallIntegrateLocaleFiles (messages w) options) w)
            (integrateLocaleFiles (messages w) options).
Proof.
  intros Hv Hin fixSet options. split.
  - unfold compatibiltyChecksTasks.
    apply (in_map (fun p => MkTask ("Compatibility check with " ++ p)%string None None
                                   (compatibilityCheck flags p))).
    exact Hin.
  - assert (Hopt : integrateOptions flags translationsPath = options).
    { unfold integrateOptions, options, js_or, js_not, js_bool.
      pose proof (validateFlags_fix_boolean flags Hv) as Hb. fold fixSet in Hb.
      fold fixSet. rewrite Hb. simpl. destruct fixSet; reflexivity. }
    unfold compatibilityCheck. rewrite Hopt. reflexivity.
Qed.

End ValidationFacts.

(** ** The task runner *)

Lemma runTask_settles (t : Task) (st : RunState) :
  settles t ->
  exists st', runTask t (Some false) st = (st', None) /\
              started st' = started st ++ [task_title t].
Proof.
  destruct t as [ti en prop fn]. intros [_ Hfn].
  destruct (Hfn (world st)) as [w' [r Hr]]. simpl. rewrite Hr.
  destruct r as [e|].
  - unfold taskFailed. destruct (instanceofListrError e); eexists; split; reflexivity.
  - eexists; split; reflexivity.
Qed.

(** A list with [exitOnError: false] whose tasks settle starts every one
    of them, in order, and is never stopped. *)
Lemma oneByOne_exitOnError_false (ts : list Task) :
  Forall settles ts ->
  forall st, exists st',
    oneByOne (fun t => runTask t (Some false)) ts st = (st', None) /\
    started st' = started st ++ map task_title ts.
Proof.
  induction 1 as [|t ts Ht _ IH]; intros st.
  - exists st. split; [reflexivity|]. simpl. rewrite app_nil_r. reflexivity.
  - destruct (runTask_settles t st Ht) as [st1 [Hrun Hst1]].
    destruct (IH st1) as [st2 [Hrest Hst2]].
    exists st2. simpl.
    assert (Hen : isEnabled t (world st) = true).
    { destruct t as [ti en prop fn]. destruct Ht as [Hnone _]. subst en. reflexivity. }
    rewrite Hen, Hrun. split; [exact Hrest|].
    rewrite Hst2, Hst1, <- app_assoc. reflexivity.
Qed.

(** What a list ends with is never thrown on by the task that returned
    it when it is the list's own [ListrError]. *)
Lemma taskFailed_ListrError (listExit : option bool) (errs : list JsErr) (st : RunState) :
  snd (taskFailed listExit (ListrError errs) st) = None.
Proof.
  reflexivity.
Qed.

Section RunFacts.

Context {C : Collaborators}.

(** C2 (amended).  Whatever the sub-tasks extractDefaultMessages returns,
    as long as each settles: the extraction stage starts every one of
    them, in order, whichever of them fail, and throws nothing on to the
    enclosing list, so the stages after it still run. *)
Theorem extraction_runs_every_subtask (flags : RunFlags) (config : Config)
    (listExit : option bool) (st : RunState) :
  Forall settles (extractDefaultMessagesTasks flags config) ->
  exists st',
    runTask (extractionStage flags config) listExit st = (st', None) /\
    started st' =
      started st ++ "Extracting Default Messages"
                 :: map task_title (extractDefaultMessagesTasks flags config).
Proof.
  intros Hall. simpl.
  destruct (oneByOne_exitOnError_false _ Hall
              {| world := record_call (CallExtractDefaultMessages (flag_path flags) config)
                                      (world st);
                 started := started st ++ ["Extracting Default Messages"];
                 errors := []; optionsExit := Some false |})
    as [st1 [Hrun Hst1]].
  rewrite Hrun. simpl in Hst1. simpl.
  destruct (errors st1) as [|e errs]; simpl.
  - eexists. split; [reflexivity|]. simpl. rewrite Hst1, <- app_assoc. reflexivity.
  - eexists. split; [reflexivity|]. simpl. rewrite Hst1, <- app_assoc. reflexivity.
Qed.

(** Once the list has rejected, the callback ends the way the [catch]
    block ends. *)
Lemma runCallback_rejected (flags : RunFlags) (config : Config) (w w2 : World)
    (begun : list string) (error : JsErr) :
  validateFlags flags = None ->
  mergeConfigs (flag_includeConfig flags) = inr config ->
  translations config <> [] ->
  run (taskList flags config) (listStart flags w) = (w2, begun, Some error) ->
  runCallback flags w = (fst (catchBlock error w2), begun, snd (catchBlock error w2)).
Proof.
  intros Hv Hm Ht Hrun. unfold listStart in Hrun. unfold runCallback. rewrite Hv, Hm.
  destruct (translations config) as [|p ps] eqn:E; [contradiction Ht; reflexivity|].
  simpl length. simpl Nat.eqb. cbv iota.
  rewrite Hrun. destruct (catchBlock error w2). reflexivity.
Qed.

(** C1 (amended).  When the task list rejects with an error named
    ListrError whose error set is non-empty and the reporter holds at
    least one entry, the callback sets the exit code to 1 and throws one
    fail error whose message is the reporter's entries joined by blank
    lines; nothing is added to the log. *)
Theorem reported_failure_aggregates (flags : RunFlags) (config : Config) (w w2 : World)
    (begun : list string) (error : JsErr) (errs : list JsErr) :
  validateFlags flags = None ->
  mergeConfigs (flag_includeConfig flags) = inr config ->
  translations config <> [] ->
  run (taskList flags config) (listStart flags w) = (w2, begun, Some error) ->
  err_name error = "ListrError" ->
  err_errors error = Some errs -> errs <> [] ->
  reporter w2 <> [] ->
  runCallback flags w =
    (set_exitCode 1 w2, begun,
     Threw (createFailError (join (newline ++ newline)%string (reporter w2)))) /\
  exitCode (set_exitCode 1 w2) = Some 1%Z /\
  logged (set_exitCode 1 w2) = logged w2.
Proof.
  intros Hv Hm Ht Hrun Hname Herrs _ Hrep.
  rewrite (runCallback_rejected flags config w w2 begun error Hv Hm Ht Hrun).
  unfold catchBlock. rewrite Herrs, Hname. simpl.
  destruct (reporter w2) as [|r rs] eqn:E; [contradiction Hrep; reflexivity|].
  simpl. auto.
Qed.

(** C7.  When the task list rejects with an error that carries a
    non-empty list of sub-errors while the reporter is empty, the
    callback sets the exit code to 1, logs each sub-error on its own, in
    order, and returns: nothing is thrown and the process is not exited. *)
Theorem partial_failure_logs_each (flags : RunFlags) (config : Config) (w w2 : World)
    (begun : list string) (error : JsErr) (errs : list JsErr) :
  validateFlags flags = None ->
  mergeConfigs (flag_includeConfig flags) = inr config ->
  translations config <> [] ->
  run (taskList flags config) (listStart flags w) = (w2, begun, Some error) ->
  err_errors error = Some errs -> errs <> [] ->
  reporter w2 = [] ->
  runCallback flags w =
    (log_error (map LogError errs) (set_exitCode 1 w2), begun, Returned) /\
  exitCode (log_error (map LogError errs) (set_exitCode 1 w2)) = Some 1%Z /\
  logged (log_error (map LogError errs) (set_exitCode 1 w2)) =
    logged w2 ++ map LogError errs.
Proof.
  intros Hv Hm Ht Hrun Herrs _ Hrep.
  rewrite (runCallback_rejected flags config w w2 begun error Hv Hm Ht Hrun).
  unfold catchBlock. rewrite Herrs. simpl. rewrite Hrep. simpl.
  rewrite andb_false_r. simpl. auto.
Qed.

(** C8.  When the task list rejects with an error that has no errors
    property, the callback logs "Unhandled exception!" and the error, and
    ends in process.exit(): it neither returns nor throws, so the exit is
    not the one of the fail-error path. *)
Theorem unhandled_failure_exits (flags : RunFlags) (config : Config) (w w2 : World)
    (begun : list string) (error : JsErr) :
  validateFlags flags = None ->
  mergeConfigs (flag_includeConfig flags) = inr config ->
  translations config <> [] ->
  run (taskList flags config) (listStart flags w) = (w2, begun, Some error) ->
  err_errors error = None ->
  runCallback flags w =
    (log_error [LogText "Unhandled exception!"; LogError error] (set_exitCode 1 w2),
     begun, ProcessExit) /\
  logged (log_error [LogText "Unhandled exception!"; LogError error] (set_exitCode 1 w2)) =
    logged w2 ++ [LogText "Unhandled exception!"; LogError error].
Proof.
  intros Hv Hm Ht Hrun Herrs.
  rewrite (runCallback_rejected flags config w w2 begun error Hv Hm Ht Hrun).
  unfold catchBlock. rewrite Herrs. simpl. auto.
Qed.

End RunFacts.

(** The scan list stops at the first source path whose scan rejects: the
    per-task [exitOnError: false] is not an option of the list, and the
    list itself was given [exitOnError: true]. *)
Lemma scan_rejection_stops_list {C : Collaborators} (config : Config) (w : World)
    (begun : list string) (r1 r2 : list string) (e : JsErr) :
  extractUntrackedMessages "./src" config (reporter w) = (r1, None) ->
  extractUntrackedMessages "./packages" config r1 = (r2, Some e) ->
  instanceofListrError e = false ->
  exists w',
    runListr (NewListr (untrackedMessagesTasks config) false (Some true)) (Some true) w begun
      = (w', begun ++ ["Checking untracked messages in ./src";
                       "Checking untracked messages in ./packages"], Some e) /\
    calls w' = calls w ++ [CallExtractUntrackedMessages "./src" config;
                           CallExtractUntrackedMessages "./packages" config] /\
    reporter w' = r2.
Proof.
  intros Hsrc Hpkg Hinst.
  unfold untrackedMessagesTasks, srcCodePaths. simpl.
  unfold untrackedCheck at 1. rewrite Hsrc. simpl.
  unfold untrackedCheck at 1. simpl. rewrite Hpkg. simpl.
  unfold taskFailed. rewrite Hinst. simpl.
  eexists. split; [|split].
  - rewrite <- app_assoc. reflexivity.
  - simpl. rewrite <- app_assoc. reflexivity.
  - reflexivity.
Qed.

Lemma fix_excludes_ignore_flags_witness :
  runCallback (C := quiet) fixWithIgnoreUnused emptyWorld =
    (emptyWorld, [],
     Threw (plainError " I18N ERROR  none of the --ignore-incompatible, --ignore-unused or --ignore-missing or --ignore-untracked is allowed when --fix is set.")).
Proof.
  apply (fix_excludes_ignore_flags (C := quiet) fixWithIgnoreUnused emptyWorld).
  - reflexivity.
  - right. left. simpl. discriminate.
Defined.

Lemma incompatible_flags_checked_before_fix_type_witness :
  validateFlags (C := quiet) fixValueWithIgnoreMissing = Some (incompatibleFlagsMessage (C := quiet)) /\
  validateFlags (C := quiet) fixValueWithIgnoreMissing <> Some (fixValueMessage (C := quiet)) /\
  runCallback (C := quiet) fixValueWithIgnoreMissing emptyWorld =
    (emptyWorld, [], Threw (plainError (incompatibleFlagsMessage (C := quiet)))).
Proof.
  apply (incompatible_flags_checked_before_fix_type (C := quiet)
           fixValueWithIgnoreMissing emptyWorld).
  - reflexivity.
  - simpl. discriminate.
  - right. right. left. simpl. discriminate.
Defined.

Lemma no_translations_no_stage_witness :
  runCallback (C := collaborators {| translations := [] |} threeExtractions scanClean integrateClean)
              noFlags emptyWorld =
    (record_call (CallMergeConfigs JUndefined) emptyWorld, [], Returned) /\
  exitStatus (record_call (CallMergeConfigs JUndefined) emptyWorld) = 0%Z.
Proof.
  apply (no_translations_no_stage
           (C := collaborators {| translations := [] |} threeExtractions scanClean integrateClean)
           noFlags {| translations := [] |} emptyWorld); reflexivity.
Defined.

Lemma compatibility_check_options_witness :
  In (MkTask "Compatibility check with translations/fr.json" None None
             (compatibilityCheck (C := quiet) fixOnly "translations/fr.json"))
     (compatibiltyChecksTasks (C := quiet) fixOnly frenchOnly) /\
  compatibilityCheck (C := quiet) fixOnly "translations/fr.json" emptyWorld =
    Settled (record_call
               (CallIntegrateLocaleFiles []
                  {| sourceFileName := "translations/fr.json";
                     targetFileName := JString "translations/fr.json";
                     dryRun := JBool false;
                     ignoreIncompatible := JBool true;
                     ignoreUnused := JBool true;
                     ignoreMissing := JBool true |})
               emptyWorld)
            None.
Proof.
  apply (compatibility_check_options (C := quiet) fixOnly frenchOnly
           "translations/fr.json" emptyWorld).
  - reflexivity.
  - simpl. left. reflexivity.
Defined.

Lemma extraction_runs_every_subtask_witness :
  exists st',
    runTask (extractionStage (C := extractionFails) noFlags frenchOnly) (Some true)
            (freshList emptyWorld (Some true)) = (st', None) /\
    started st' = ["Extracting Default Messages"; "extract a"; "extract b"; "extract c"].
Proof.
  apply (extraction_runs_every_subtask (C := extractionFails) noFlags frenchOnly
           (Some true) (freshList emptyWorld (Some true))).
  simpl. repeat constructor; intros w; do 2 eexists; reflexivity.
Defined.

(** C2 (counterexample).  Of the extraction sub-tasks "extract a",
    "extract b", "extract c", the second rejects whatever the context,
    and the run still starts the third. *)
Lemma extraction_continues_after_failure :
  ~ abortsAfterFailure threeExtractions
      (snd (fst (runCallback (C := extractionFails) noFlags emptyWorld))).
Proof.
  intros H.
  apply (H 1%nat 2%nat (rejects "extract b") (resolves "extract c")).
  - reflexivity.
  - intros w. do 2 eexists. reflexivity.
  - reflexivity.
  - lia.
  - vm_compute. tauto.
Qed.

Lemma reported_failure_aggregates_witness :
  exists w2 begun error errs,
    run (taskList (C := extractionReports) noFlags frenchOnly) (listStart noFlags emptyWorld)
      = (w2, begun, Some error) /\
    err_name error = "ListrError" /\ err_errors error = Some errs /\ errs <> [] /\
    reporter w2 <> [] /\
    runCallback (C := extractionReports) noFlags emptyWorld =
      (set_exitCode 1 w2, begun, Threw (plainError "missing id")).
Proof.
  do 4 eexists.
  split; [vm_compute; reflexivity|].
  split; [reflexivity|]. split; [reflexivity|].
  split; [discriminate|]. split; [simpl; discriminate|].
  refine (proj1 (reported_failure_aggregates (C := extractionReports) noFlags frenchOnly
                   emptyWorld _ _ _ _ _ _ _ _ _ _ _ _)).
  - reflexivity.
  - reflexivity.
  - simpl. discriminate.
  - vm_compute. reflexivity.
  - reflexivity.
  - reflexivity.
  - discriminate.
  - simpl. discriminate.
Defined.

(** C1 (counterexample).  The scan of ./src records one entry in the
    reporter and rejects with an error that carries a non-empty errors
    array and is named AggregateError: the callback logs the sub-error
    and returns, it does not throw the aggregate. *)
Lemma reported_failure_needs_ListrError :
  ~ reportedFailure (C := scanAggregate) noFlags emptyWorld.
Proof.
  intros H.
  specialize (H frenchOnly
                (set_reporter ["untracked message in ./src"]
                   (record_call (CallExtractUntrackedMessages "./src" frenchOnly)
                      (listStart noFlags emptyWorld)))
                ["Checking untracked messages"; "Checking untracked messages in ./src"]
                (Thrown "AggregateError" "scan failed" (Some [plainError "first"]))
                [plainError "first"]).
  assert (Hthrew : snd (runCallback (C := scanAggregate) noFlags emptyWorld) = Returned)
    by (vm_compute; reflexivity).
  rewrite H in Hthrew.
  - discriminate Hthrew.
  - reflexivity.
  - reflexivity.
  - simpl. discriminate.
  - vm_compute. reflexivity.
  - reflexivity.
  - discriminate.
  - simpl. discriminate.
Qed.

Lemma partial_failure_logs_each_witness :
  exists w2 begun error errs,
    run (taskList (C := mergeRejects) noFlags frenchOnly) (listStart noFlags emptyWorld)
      = (w2, begun, Some error) /\
    err_errors error = Some errs /\ errs <> [] /\ reporter w2 = [] /\
    runCallback (C := mergeRejects) noFlags emptyWorld =
      (log_error [LogError (plainError "incompatible translation")] (set_exitCode 1 w2),
       begun, Returned).
Proof.
  do 4 eexists.
  split; [vm_compute; reflexivity|].
  split; [reflexivity|]. split; [discriminate|]. split; [reflexivity|].
  refine (proj1 (partial_failure_logs_each (C := mergeRejects) noFlags frenchOnly
                   emptyWorld _ _ (ListrError [plainError "incompatible translation"])
                   [plainError "incompatible translation"] _ _ _ _ _ _ _)).
  - reflexivity.
  - reflexivity.
  - simpl. discriminate.
  - vm_compute. reflexivity.
  - reflexivity.
  - discriminate.
  - reflexivity.
Defined.

Lemma unhandled_failure_exits_witness :
  exists w2 begun,
    run (taskList (C := scanThrows) noFlags frenchOnly) (listStart noFlags emptyWorld)
      = (w2, begun, Some (plainError "EACCES")) /\
    runCallback (C := scanThrows) noFlags emptyWorld =
      (log_error [LogText "Unhandled exception!"; LogError (plainError "EACCES")]
                 (set_exitCode 1 w2),
       begun, ProcessExit).
Proof.
  do 2 eexists.
  split; [vm_compute; reflexivity|].
  refine (proj1 (unhandled_failure_exits (C := scanThrows) noFlags frenchOnly
                   emptyWorld _ _ _ _ _ _ _ _)).
  - reflexivity.
  - reflexivity.
  - simpl. discriminate.
  - vm_compute. reflexivity.
  - reflexivity.
Defined.

(** C3 (the code at the failing input).  With the scan of ./packages
    rejecting (after it recorded its entry) and the scans of ./src and
    ./x-pack clean, the run scans ./src and ./packages and stops: no
    sub-task is started for ./x-pack, extractUntrackedMessages is never
    called on it, and the rejection, which has no errors property, ends
    the process through the unhandled-exception branch. *)
Theorem scan_stops_at_rejected_path :
  runCallback (C := packagesFail) noFlags emptyWorld =
    ({| messages := [];
        reporter := ["untracked message in ./packages"];
        exitCode := Some 1%Z;
        logged := [LogText "Unhandled exception!";
                   LogError (plainError "untracked message in ./packages")];
        calls := [CallMergeConfigs JUndefined;
                  CallExtractUntrackedMessages "./src" frenchOnly;
                  CallExtractUntrackedMessages "./packages" frenchOnly] |},
     ["Checking untracked messages";
      "Checking untracked messages in ./src";
      "Checking untracked messages in ./packages"],
     ProcessExit).
Proof.
  vm_compute. reflexivity.
Qed.

(* ================================================================= *)
(** * Further properties of the script *)

(** ** Which flags pass validation *)

Lemma JsType_eqb_boolean (v : JsVal) :
  JsType_eqb (typeof v) TBoolean = true <-> isBoolean v.
Proof.
  split.
  - destruct v; simpl; intros H; try discriminate H. eexists; reflexivity.
  - intros [b ->]. reflexivity.
Qed.

Lemma JsType_eqb_not_boolean (v : JsVal) :
  JsType_eqb (typeof v) TBoolean = false <-> ~ isBoolean v.
Proof.
  rewrite <- JsType_eqb_boolean.
  destruct (JsType_eqb (typeof v) TBoolean); split; intros H;
    try reflexivity; try discriminate; try (contradiction H; reflexivity).
Qed.

Lemma isDefined_false (v : JsVal) : isDefined v = false <-> v = JUndefined.
Proof.
  destruct v; simpl; split; intros H; try discriminate H; reflexivity.
Qed.

Lemma anyDefined_false (flags : RunFlags) :
  isDefined (flag_ignoreIncompatible flags) ||
  isDefined (flag_ignoreUnused flags) ||
  isDefined (flag_ignoreMissing flags) ||
  isDefined (flag_ignoreUntracked flags) = false <-> ~ someIgnoreFlagSet flags.
Proof.
  unfold someIgnoreFlagSet. repeat rewrite orb_false_iff.
  repeat rewrite isDefined_false. split.
  - intros [[[H1 H2] H3] H4] [H | [H | [H | H]]]; contradiction.
  - intros H.
    destruct (flag_ignoreIncompatible flags), (flag_ignoreUnused flags),
             (flag_ignoreMissing flags), (flag_ignoreUntracked flags);
      try (repeat split; reflexivity);
      exfalso; apply H;
      first [ left; discriminate
            | right; left; discriminate
            | right; right; left; discriminate
            | right; right; right; discriminate ].
Qed.

Section AcceptedFlags.

Context {C : Collaborators}.

(** The first check fires exactly when fix is truthy and an ignore flag
    is given. *)
Lemma first_check_iff (flags : RunFlags) :
  truthy (fixOf flags) &&
  (isDefined (flag_ignoreIncompatible flags) ||
   isDefined (flag_ignoreUnused flags) ||
   isDefined (flag_ignoreMissing flags) ||
   isDefined (flag_ignoreUntracked flags)) = false <-> ~ fixClashes flags.
Proof.
  unfold fixClashes. rewrite andb_false_iff, anyDefined_false. split.
  - intros [H | H] [Ht Hs]; [rewrite Ht in H; discriminate H | contradiction].
  - intros H. destruct (truthy (fixOf flags)); [right|left; reflexivity].
    intros Hs. apply H. split; [reflexivity|exact Hs].
Qed.

(** X1.  validateFlags lets a set of flags through exactly when fix is
    absent or a boolean, no ignore flag accompanies a true fix, path and
    include-config are not booleans, and ignore-untracked is absent or a
    boolean. *)
Theorem validateFlags_accepts_iff (flags : RunFlags) :
  validateFlags flags = None <-> acceptedFlags flags.
Proof.
  unfold validateFlags, acceptedFlags.
  destruct (truthy (fixOf flags) && _) eqn:E1.
  { split; [discriminate|]. intros [Hfix _]. exfalso.
    apply andb_true_iff in E1 as [Ht Hd].
    assert (Hn : ~ ~ someIgnoreFlagSet flags).
    { intros Hs. apply anyDefined_false in Hs. rewrite Hs in Hd. discriminate Hd. }
    unfold fixOf in Ht.
    destruct Hfix as [H | [H | [_ H]]];
      [rewrite H in Ht; discriminate Ht | rewrite H in Ht; discriminate Ht | exact (Hn H)]. }
  apply first_check_iff in E1.
  destruct (JsType_eqb (typeof (flag_path flags)) TBoolean) eqn:Ep.
  { split; [discriminate|]. intros [_ [Hp _]]. apply JsType_eqb_boolean in Ep. contradiction. }
  destruct (JsType_eqb (typeof (flag_includeConfig flags)) TBoolean) eqn:Ei.
  { split; [discriminate|]. intros [_ [_ [Hi _]]]. apply JsType_eqb_boolean in Ei.
    contradiction. }
  apply JsType_eqb_not_boolean in Ep, Ei. simpl.
  destruct (JsType_eqb (typeof (fixOf flags)) TBoolean) eqn:Ef; simpl.
  2:{ split; [discriminate|]. intros [Hfix _]. exfalso. unfold fixOf in Ef.
      destruct Hfix as [H | [H | [H _]]]; rewrite H in Ef; discriminate Ef. }
  assert (Hfix : flag_fix flags = JUndefined \/ flag_fix flags = JBool false \/
                 (flag_fix flags = JBool true /\ ~ someIgnoreFlagSet flags)).
  { unfold fixClashes, fixOf in E1. unfold fixOf in Ef.
    destruct (flag_fix flags) as [|[|]| | |]; simpl in Ef; try discriminate Ef; auto.
    right. right. split; [reflexivity|]. intros Hs. apply E1. split; [reflexivity|exact Hs]. }
  destruct (flag_ignoreUntracked flags) as [|b|s|n|l] eqn:Eu; simpl.
  - split; auto.
  - split; [intros _|reflexivity]. repeat split; auto. right. exists b. reflexivity.
  - split; [discriminate|]. intros [_ [_ [_ [H | [b H]]]]]; discriminate H.
  - split; [discriminate|]. intros [_ [_ [_ [H | [b H]]]]]; discriminate H.
  - split; [discriminate|]. intros [_ [_ [_ [H | [b H]]]]]; discriminate H.
Qed.

(** X2.  Whenever validation rejects the flags, the callback throws a
    fail error carrying one of the four validation messages and leaves
    the world as it found it: mergeConfigs is not called, no task is
    started, nothing is logged and the exit code is not set. *)
Theorem rejected_flags_touch_nothing (flags : RunFlags) (w : World) :
  ~ acceptedFlags flags ->
  exists message,
    (message = incompatibleFlagsMessage \/ message = requireValueMessage \/
     message = fixValueMessage \/ message = ignoreUntrackedValueMessage) /\
    runCallback flags w = (w, [], Threw (createFailError message)).
Proof.
  intros Hrej. rewrite <- validateFlags_accepts_iff in Hrej.
  unfold runCallback.
  destruct (validateFlags flags) as [m|] eqn:E; [|contradiction Hrej; reflexivity].
  exists m. split; [|reflexivity].
  unfold validateFlags in E.
  destruct (truthy (fixOf flags) && _); [injection E as <-; auto|].
  destruct (_ || _); [injection E as <-; auto|].
  destruct (negb (JsType_eqb (typeof (fixOf flags)) TBoolean)); [injection E as <-; auto|].
  destruct (_ && _); [injection E as <-; auto|discriminate E].
Qed.

(** X3.  A path or include-config flag given without a value (a boolean)
    makes the callback throw the "require a value" fail error before the
    config is loaded, unless the fix/ignore clash of the first check
    applies. *)
Theorem path_requires_value (flags : RunFlags) (w : World) :
  isBoolean (flag_path flags) \/ isBoolean (flag_includeConfig flags) ->
  ~ fixClashes flags ->
  runCallback flags w = (w, [], Threw (createFailError requireValueMessage)).
Proof.
  intros Hb Hc. unfold runCallback, validateFlags.
  apply first_check_iff in Hc. rewrite Hc.
  assert (H : JsType_eqb (typeof (flag_path flags)) TBoolean ||
              JsType_eqb (typeof (flag_includeConfig flags)) TBoolean = true).
  { apply orb_true_iff. destruct Hb as [Hb | Hb]; apply JsType_eqb_boolean in Hb; auto. }
  rewrite H. reflexivity.
Qed.

(** X4.  A fix flag that carries a value which is not a boolean is always
    rejected: with path and include-config in order, the error is the
    "--fix can't have a value" one unless the value is truthy and an
    ignore flag is given; this covers falsy values such as the empty
    string given together with ignore flags. *)
Theorem fix_value_rejected (flags : RunFlags) (w : World) :
  flag_fix flags <> JUndefined -> ~ isBoolean (flag_fix flags) ->
  ~ isBoolean (flag_path flags) -> ~ isBoolean (flag_includeConfig flags) ->
  ~ fixClashes flags ->
  runCallback flags w = (w, [], Threw (createFailError fixValueMessage)).
Proof.
  intros Hdef Hnb Hp Hi Hc. unfold runCallback, validateFlags.
  apply first_check_iff in Hc. rewrite Hc.
  apply JsType_eqb_not_boolean in Hp, Hi. rewrite Hp, Hi.
  assert (Hf : JsType_eqb (typeof (fixOf flags)) TBoolean = false).
  { unfold fixOf. destruct (flag_fix flags); simpl; try reflexivity.
    - contradiction Hdef; reflexivity.
    - exfalso. apply Hnb. eexists; reflexivity. }
  rewrite Hf. reflexivity.
Qed.

(** X5.  An ignore-untracked flag that carries a value which is not a
    boolean is rejected with its own message when fix is absent or false
    and path and include-config are in order. *)
Theorem ignoreUntracked_value_rejected (flags : RunFlags) (w : World) :
  flag_fix flags = JUndefined \/ flag_fix flags = JBool false ->
  ~ isBoolean (flag_path flags) -> ~ isBoolean (flag_includeConfig flags) ->
  flag_ignoreUntracked flags <> JUndefined -> ~ isBoolean (flag_ignoreUntracked flags) ->
  runCallback flags w = (w, [], Threw (createFailError ignoreUntrackedValueMessage)).
Proof.
  intros Hfix Hp Hi Hdef Hnb. unfold runCallback, validateFlags.
  apply JsType_eqb_not_boolean in Hp, Hi. rewrite Hp, Hi.
  assert (Hf : fixOf flags = JBool false)
    by (unfold fixOf; destruct Hfix as [H | H]; rewrite H; reflexivity).
  rewrite Hf. simpl.
  destruct (flag_ignoreUntracked flags); simpl; try reflexivity.
  - contradiction Hdef; reflexivity.
  - exfalso. apply Hnb. eexists; reflexivity.
Qed.

(** X6.  Leaving fix out is the same as giving fix = false: the callback
    does the same from every world. *)
Theorem fix_defaults_to_false (flags : RunFlags) (w : World) :
  flag_fix flags = JUndefined ->
  runCallback flags w = runCallback (withFix (JBool false) flags) w.
Proof.
  destruct flags as [ii im iu ic it f p]. simpl. intros ->. reflexivity.
Qed.

End AcceptedFlags.

(** ** The options of a compatibility check *)

Section OptionsFacts.

Context {C : Collaborators}.

(** X7.  Whatever the flags, a compatibility check is either a dry run
    without a target file, or a run that is not dry and whose target is
    the very file it reads. *)
Theorem dry_run_or_overwrite (flags : RunFlags) (translationsPath : string) :
  let options := integrateOptions flags translationsPath in
  (dryRun options = JBool true /\ targetFileName options = JUndefined) \/
  (dryRun options = JBool false /\
   targetFileName options = JString (sourceFileName options)).
Proof.
  unfold integrateOptions, js_not. simpl.
  destruct (truthy (fixOf flags)); [right|left]; split; reflexivity.
Qed.

(** X8.  The ignore-incompatible, ignore-unused and ignore-missing flags
    are never type-checked: given as any non-empty text (the text
    "false" included) while fix is absent or false, the flag counts as
    set and the merge routine is told to ignore that category. *)
Theorem ignore_flag_text_counts_as_set (flags : RunFlags) (translationsPath s : string) :
  flag_fix flags = JUndefined \/ flag_fix flags = JBool false ->
  s <> "" ->
  let options := integrateOptions flags translationsPath in
  (flag_ignoreIncompatible flags = JString s -> ignoreIncompatible options = JBool true) /\
  (flag_ignoreUnused flags = JString s -> ignoreUnused options = JBool true) /\
  (flag_ignoreMissing flags = JString s -> ignoreMissing options = JBool true).
Proof.
  intros Hfix Hs options.
  assert (Hf : fixOf flags = JBool false)
    by (unfold fixOf; destruct Hfix as [H | H]; rewrite H; reflexivity).
  assert (Ht : truthy (JString s) = true).
  { simpl. destruct (String.eqb_spec s ""); [contradiction|reflexivity]. }
  unfold options, integrateOptions, js_or, js_bool. rewrite Hf. simpl.
  repeat split; intros ->; rewrite Ht; reflexivity.
Qed.

End OptionsFacts.

(** ** The catch block *)

Section CatchFacts.

Context {C : Collaborators}.

(** X9.  The three ways the catch block ends partition the errors: it
    exits the process exactly when the error has no errors property; it
    throws exactly when the error has one, is named ListrError and the
    reporter is not empty; it returns in every other case. *)
Theorem catchBlock_outcome (error : JsErr) (w : World) :
  (snd (catchBlock error w) = ProcessExit <-> err_errors error = None) /\
  ((exists e, snd (catchBlock error w) = Threw e) <->
   err_errors error <> None /\ err_name error = "ListrError" /\ reporter w <> []) /\
  (snd (catchBlock error w) = Returned <->
   err_errors error <> None /\ (err_name error <> "ListrError" \/ reporter w = [])).
Proof.
  unfold catchBlock.
  destruct (err_errors error) as [errs|]; simpl;
    [destruct (String.eqb_spec (err_name error) "ListrError") as [Hn|Hn];
     destruct (reporter w) as [|r rs]; simpl|];
    repeat split; intros;
    repeat match goal with
           | H : exists _, _ |- _ => destruct H
           | H : _ /\ _ |- _ => destruct H
           | H : _ \/ _ |- _ => destruct H
           end;
    try discriminate; try congruence; eauto.
Qed.

(** The catch block sets the exit code to 1, extends the log and touches
    nothing else. *)
Lemma catchBlock_fields (error : JsErr) (w : World) :
  exitCode (fst (catchBlock error w)) = Some 1%Z /\
  messages (fst (catchBlock error w)) = messages w /\
  reporter (fst (catchBlock error w)) = reporter w /\
  calls (fst (catchBlock error w)) = calls w /\
  exists entries, logged (fst (catchBlock error w)) = logged w ++ entries.
Proof.
  unfold catchBlock.
  destruct (err_errors error) as [errs|]; simpl.
  - destruct (String.eqb (err_name error) "ListrError" && _); simpl;
      repeat split; try reflexivity.
    + exists []. rewrite app_nil_r. reflexivity.
    + eexists. reflexivity.
  - repeat split; try reflexivity. eexists. reflexivity.
Qed.

(** X10.  Whatever error the task list rejects with, the callback leaves
    the exit code at 1, and the catch block touches nothing but the exit
    code and the log: messages, reporter and recorded calls are as the
    run left them and the log is only extended. *)
Theorem rejected_run_exit_code (flags : RunFlags) (config : Config) (w w2 : World)
    (begun : list string) (error : JsErr) :
  validateFlags flags = None ->
  mergeConfigs (flag_includeConfig flags) = inr config ->
  translations config <> [] ->
  run (taskList flags config) (listStart flags w) = (w2, begun, Some error) ->
  let final := fst (fst (runCallback flags w)) in
  exitStatus final = 1%Z /\
  messages final = messages w2 /\ reporter final = reporter w2 /\
  calls final = calls w2 /\
  exists entries, logged final = logged w2 ++ entries.
Proof.
  intros Hv Hm Ht Hrun.
  rewrite (runCallback_rejected flags config w w2 begun error Hv Hm Ht Hrun).
  cbn [fst]. destruct (catchBlock_fields error w2) as [He [Hmsg [Hr [Hc Hl]]]].
  unfold exitStatus. rewrite He. auto.
Qed.

(** X11.  An error whose errors array is empty is swallowed unless it is
    a ListrError met with a non-empty reporter: the callback returns,
    nothing is logged, and only the exit code 1 tells of the failure. *)
Theorem empty_error_list_is_silent (flags : RunFlags) (config : Config) (w w2 : World)
    (begun : list string) (error : JsErr) :
  validateFlags flags = None ->
  mergeConfigs (flag_includeConfig flags) = inr config ->
  translations config <> [] ->
  run (taskList flags config) (listStart flags w) = (w2, begun, Some error) ->
  err_errors error = Some [] ->
  err_name error <> "ListrError" \/ reporter w2 = [] ->
  snd (runCallback flags w) = Returned /\
  snd (fst (runCallback flags w)) = begun /\
  logged (fst (fst (runCallback flags w))) = logged w2 /\
  exitCode (fst (fst (runCallback flags w))) = Some 1%Z.
Proof.
  intros Hv Hm Ht Hrun Herrs Hnot.
  rewrite (runCallback_rejected flags config w w2 begun error Hv Hm Ht Hrun). simpl.
  unfold catchBlock. rewrite Herrs. simpl.
  assert (Hg : String.eqb (err_name error) "ListrError" &&
               negb (length (reporter w2) =? 0)%nat = false).
  { destruct Hnot as [Hn | Hr].
    - apply String.eqb_neq in Hn. rewrite Hn. reflexivity.
    - rewrite Hr. simpl. apply andb_false_r. }
  rewrite Hg. simpl. rewrite app_nil_r. auto.
Qed.

End CatchFacts.

(** ** The stages *)



Section StageFacts.

Context {C : Collaborators}.




(** The world after the three scans, the reporter being left as [r1],
    [r2], [r3] in turn. *)
Lemma scan_list_resolves (config : Config) (w : World) (begun : list string)
    (r1 r2 r3 : list string) :
  extractUntrackedMessages "./src" config (reporter w) = (r1, None) ->
  extractUntrackedMessages "./packages" config r1 = (r2, None) ->
  extractUntrackedMessages "./x-pack" config r2 = (r3, None) ->
  runListr (NewListr (untrackedMessagesTasks config) false (Some true)) (Some true) w begun
    = (set_reporter r3
         (record_calls [CallExtractUntrackedMessages "./src" config;
                        CallExtractUntrackedMessages "./packages" config;
                        CallExtractUntrackedMessages "./x-pack" config] w),
       begun ++ scanTitles, None).
Proof.
  intros H1 H2 H3.
  unfold untrackedMessagesTasks, srcCodePaths, scanTitles. simpl.
  unfold untrackedCheck at 1. rewrite H1. simpl.
  unfold untrackedCheck at 1. simpl. rewrite H2. simpl.
  unfold untrackedCheck at 1. simpl. rewrite H3. simpl.
  rewrite <- !app_assoc. reflexivity.
Qed.

(** X13.  When no scan rejects, the scan stage scans ./src, ./packages
    and ./x-pack in that order, each scan getting the reporter as the
    scan before it left it; the stage reports no error and throws
    nothing. *)
Theorem scan_stage_threads_reporter (flags : RunFlags) (config : Config)
    (listExit : option bool) (st : RunState) (r1 r2 r3 : list string) :
  extractUntrackedMessages "./src" config (reporter (world st)) = (r1, None) ->
  extractUntrackedMessages "./packages" config r1 = (r2, None) ->
  extractUntrackedMessages "./x-pack" config r2 = (r3, None) ->
  exists st',
    runTask (untrackedStage flags config) listExit st = (st', None) /\
    reporter (world st') = r3 /\
    calls (world st') =
      calls (world st) ++ [CallExtractUntrackedMessages "./src" config;
                           CallExtractUntrackedMessages "./packages" config;
                           CallExtractUntrackedMessages "./x-pack" config] /\
    started st' = started st ++ "Checking untracked messages" :: scanTitles /\
    errors st' = errors st.
Proof.
  intros H1 H2 H3. unfold untrackedStage. cbn [runTask listr_exitOnError].
  rewrite (scan_list_resolves config (world st) _ r1 r2 r3 H1 H2 H3).
  eexists. split; [reflexivity|]. cbn [world started errors].
  repeat split; try reflexivity.
  - simpl. rewrite <- !app_assoc. reflexivity.
  - rewrite <- app_assoc. reflexivity.
Qed.

End StageFacts.

(** ** Whole runs *)

Section WholeRun.

Context {C : Collaborators}.








(** X15.  A scan of ./src that rejects (with anything but a ListrError)
    ends the run on the spot: the sub-tasks for ./packages and ./x-pack,
    the extraction stage and the compatibility stage are never started,
    extractDefaultMessages and integrateLocaleFiles are never called,
    and the exit code is 1. *)
Theorem rejected_scan_ends_run (flags : RunFlags) (config : Config) (w : World)
    (r1 : list string) (e : JsErr) :
  validateFlags flags = None ->
  mergeConfigs (flag_includeConfig flags) = inr config ->
  translations config <> [] ->
  truthy (flag_ignoreUntracked flags) = false ->
  extractUntrackedMessages "./src" config [] = (r1, Some e) ->
  instanceofListrError e = false ->
  let result := runCallback flags w in
  snd (fst result) =
    ["Checking untracked messages"; "Checking untracked messages in ./src"] /\
  calls (fst (fst result)) =
    calls w ++ [CallMergeConfigs (flag_includeConfig flags);
                CallExtractUntrackedMessages "./src" config] /\
  reporter (fst (fst result)) = r1 /\
  exitStatus (fst (fst result)) = 1%Z.
Proof.
  intros Hv Hm Ht Hu Hsrc Hinst result.
  assert (Hrun : run (taskList flags config) (listStart flags w) =
                 (set_reporter r1
                    (record_call (CallExtractUntrackedMessages "./src" config)
                       (listStart flags w)),
                  ["Checking untracked messages"; "Checking untracked messages in ./src"],
                  Some e)).
  { unfold run, taskList. cbn [listr_exitOnError runListr oneByOne].
    replace (isEnabled (untrackedStage flags config)
               (world {| world := listStart flags w; started := []; errors := [];
                         optionsExit := Some true |}))
      with (negb (truthy (flag_ignoreUntracked flags))) by reflexivity.
    rewrite Hu. cbn [negb]. unfold untrackedStage, untrackedMessagesTasks, srcCodePaths.
    simpl. unfold untrackedCheck at 1. simpl. rewrite Hsrc. simpl.
    unfold taskFailed. rewrite Hinst. simpl. rewrite Hinst. simpl. reflexivity. }
  unfold result.
  rewrite (runCallback_rejected flags config w _ _ e Hv Hm Ht Hrun).
  cbn [fst snd].
  match goal with
  | |- context [catchBlock e ?w2] =>
    destruct (catchBlock_fields e w2) as [Hexit [_ [Hrep [Hcalls _]]]]
  end.
  unfold exitStatus. rewrite Hexit, Hrep, Hcalls. repeat split.
  simpl. rewrite <- app_assoc. reflexivity.
Qed.


End WholeRun.

(** ** When createJob returns a job *)


(** ** Examples of the further properties *)

Lemma rejected_flags_touch_nothing_witness :
  exists message,
    (message = incompatibleFlagsMessage (C := quiet) \/
     message = requireValueMessage (C := quiet) \/
     message = fixValueMessage (C := quiet) \/
     message = ignoreUntrackedValueMessage (C := quiet)) /\
    runCallback (C := quiet) pathWithoutValue emptyWorld =
      (emptyWorld, [], Threw (plainError message)).
Proof.
  apply (rejected_flags_touch_nothing (C := quiet) pathWithoutValue emptyWorld).
  intros [_ [Hp _]]. apply Hp. exists true. reflexivity.
Defined.

Lemma path_requires_value_witness :
  runCallback (C := quiet) pathWithoutValue emptyWorld =
    (emptyWorld, [],
     Threw (plainError " I18N ERROR  --path and --include-config require a value")).
Proof.
  apply (path_requires_value (C := quiet) pathWithoutValue emptyWorld).
  - left. exists true. reflexivity.
  - intros [Ht _]. discriminate Ht.
Defined.

Lemma fix_value_rejected_witness :
  runCallback (C := quiet) emptyFixWithIgnoreMissing emptyWorld =
    (emptyWorld, [], Threw (plainError " I18N ERROR  --fix can't have a value")).
Proof.
  apply (fix_value_rejected (C := quiet) emptyFixWithIgnoreMissing emptyWorld).
  - simpl. discriminate.
  - intros [b H]. discriminate H.
  - intros [b H]. discriminate H.
  - intros [b H]. discriminate H.
  - intros [Ht _]. discriminate Ht.
Defined.

Lemma ignoreUntracked_value_rejected_witness :
  runCallback (C := quiet) ignoreUntrackedWithValue emptyWorld =
    (emptyWorld, [],
     Threw (plainError " I18N ERROR  --ignore-untracked can't have a value")).
Proof.
  apply (ignoreUntracked_value_rejected (C := quiet) ignoreUntrackedWithValue emptyWorld).
  - left. reflexivity.
  - intros [b H]. discriminate H.
  - intros [b H]. discriminate H.
  - simpl. discriminate.
  - intros [b H]. discriminate H.
Defined.

Lemma fix_defaults_to_false_witness :
  runCallback (C := frenchFails) noFlags emptyWorld =
  runCallback (C := frenchFails) (withFix (JBool false) noFlags) emptyWorld.
Proof.
  apply (fix_defaults_to_false (C := frenchFails) noFlags emptyWorld). reflexivity.
Defined.

Lemma ignore_flag_text_counts_as_set_witness :
  ignoreIncompatible
    (integrateOptions ignoreIncompatibleAsText "translations/fr.json")
  = JBool true.
Proof.
  refine (proj1 (ignore_flag_text_counts_as_set ignoreIncompatibleAsText
                   "translations/fr.json" "false" _ _) _).
  - left. reflexivity.
  - discriminate.
  - reflexivity.
Defined.

Lemma rejected_run_exit_code_witness :
  exitStatus (fst (fst (runCallback (C := mergeRejects) noFlags emptyWorld))) = 1%Z.
Proof.
  refine (proj1 (rejected_run_exit_code (C := mergeRejects) noFlags frenchOnly emptyWorld
                   _ _ (ListrError [plainError "incompatible translation"]) _ _ _ _)).
  - reflexivity.
  - reflexivity.
  - simpl. discriminate.
  - vm_compute. reflexivity.
Defined.

Lemma empty_error_list_is_silent_witness :
  snd (runCallback (C := scanEmptyErrors) noFlags emptyWorld) = Returned /\
  logged (fst (fst (runCallback (C := scanEmptyErrors) noFlags emptyWorld))) = [].
Proof.
  pose proof (empty_error_list_is_silent (C := scanEmptyErrors) noFlags frenchOnly emptyWorld
                (set_reporter []
                   (record_call (CallExtractUntrackedMessages "./src" frenchOnly)
                      (listStart noFlags emptyWorld)))
                ["Checking untracked messages"; "Checking untracked messages in ./src"]
                (Thrown "ValidationError" "nothing to report" (Some []))
                eq_refl eq_refl) as H.
  destruct H as [Hout [_ [Hlog _]]].
  - simpl. discriminate.
  - vm_compute. reflexivity.
  - reflexivity.
  - left. simpl. discriminate.
  - split; [exact Hout | exact Hlog].
Defined.

Lemma scan_stage_threads_reporter_witness :
  exists st',
    runTask (untrackedStage (C := scanRecording) noFlags frenchOnly) (Some true)
            (freshList emptyWorld (Some true)) = (st', None) /\
    reporter (world st') = ["./src"; "./packages"; "./x-pack"].
Proof.
  destruct (scan_stage_threads_reporter (C := scanRecording) noFlags frenchOnly (Some true)
              (freshList emptyWorld (Some true))
              ["./src"] ["./src"; "./packages"] ["./src"; "./packages"; "./x-pack"]
              eq_refl eq_refl eq_refl) as [st' [Hrun [Hrep _]]].
  exists st'. split; [exact Hrun | exact Hrep].
Defined.


Lemma rejected_scan_ends_run_witness :
  snd (fst (runCallback (C := scanThrows) noFlags emptyWorld)) =
    ["Checking untracked messages"; "Checking untracked messages in ./src"] /\
  calls (fst (fst (runCallback (C := scanThrows) noFlags emptyWorld))) =
    [CallMergeConfigs JUndefined; CallExtractUntrackedMessages "./src" frenchOnly].
Proof.
  destruct (rejected_scan_ends_run (C := scanThrows) noFlags frenchOnly emptyWorld
              [] (plainError "EACCES")) as [Hbegun [Hcalls _]].
  - reflexivity.
  - reflexivity.
  - simpl. discriminate.
  - reflexivity.
  - reflexivity.
  - reflexivity.
  - split; [exact Hbegun | exact Hcalls].
Defined.

